(** * pywwt: the Windows-client example notebook

    The repository's source is one Jupyter notebook,
    [examples/windows/pywwt_example.ipynb].  Its code cells form a
    straight-line Python script that drives the WorldWide Telescope
    Windows client through [pywwt.windows] and reads a point cloud from
    an HDF5 file.

    The script is embedded as a program over the external calls it makes
    (a free monad over the call signature).  Every call may return or
    raise; a raise ends the run, as the script has no [try].  A run
    against an arbitrary implementation of the external world yields the
    log of the calls made, each with its outcome. *)

From Stdlib Require Import QArith.
From stdpp Require Import gmap strings list fin_maps.

Open Scope string_scope.

(** ** The platform: floats, colours, view states *)

(** Python floats and the NumPy element type.  [flit q] is the float a
    decimal literal of exact value [q] denotes; [fdiv] is [/]; [flt] is
    the comparison [<], used by the clamp of the colour mapping only.
    Nothing is assumed of these operations. *)
Class Platform := {
  float : Type;
  color : Type;        (* an entry of the array map_array_to_colors returns *)
  view_state : Type;   (* what WWTWindowsClient.get_state returns *)
  flit : Q → float;
  fdiv : float → float → float;
  flt : float → float → bool;
}.

(** ** Python values and handles *)

(** Values a property dict may hold. *)
Inductive pyvalue :=
  | PyNone
  | PyBool (b : bool)
  | PyInt (n : Z)
  | PyStr (s : string).

Definition is_str (v : pyvalue) : bool :=
  match v with PyStr _ => true | _ => false end.

(** A dict display [{k1: v1, ..., kn: vn}]: the items are stored left to
    right, a later item replacing an earlier one under the same key. *)
Definition dict_display {V} (items : list (string * V)) : gmap string V :=
  foldl (λ d kv, <[kv.1 := kv.2]> d) ∅ items.

(** Object references. *)
Inductive client := Client (id : N).
Inductive layer := Layer (id : N).
Inductive h5file := H5File (id : N).
Inductive dataset := Dataset (id : N).

(** The two units of [astropy.units] the script names. *)
Inductive unit_name := Mpc | cm.

(** A one-dimensional NumPy array of floats. *)
Abbreviation array := (list float) (only parsing).

Section Program.
Context `{P : Platform}.

(** A column of the data dict: coordinates or colours. *)
Inductive column :=
  | Floats (a : array)
  | Colors (c : list color).

(** ** External calls

    One constructor per call the script makes into a library, indexed by
    the type of what the call returns. *)
Inductive ext : Type → Type :=
  (* pywwt.windows *)
  | WWTWindowsClient : ext client
  | new_layer (wwt : client) (frame name : string) (fields : list string) : ext layer
  | set_properties (l : layer) (props : gmap string pyvalue) : ext unit
  | activate (l : layer) : ext unit
  | update (l : layer) (data : gmap string column) (purge_all : bool)
           (fly_to : list float) : ext unit
  | get_state (wwt : client) : ext view_state
  | map_array_to_colors (arr : array) (cmap scale : string) (vmin vmax : float) :
      ext (list color)
  | convert_xyz_to_spherical (x y z : array) : ext (gmap string column)
  (* h5py *)
  | h5py_File (fn mode : string) : ext h5file
  | file_getitem (f : h5file) (key : string) : ext dataset      (* f[key] *)
  | dataset_read (d : dataset) : ext array                      (* d[:] *)
  | file_close (f : h5file) : ext unit
  (* astropy.units *)
  | unit_to (src dst : unit_name) : ext float.                  (* src.to(dst) *)

(** ** Programs *)

Inductive prog (A : Type) : Type :=
  | Ret (a : A)
  | Call {X : Type} (e : ext X) (k : X → prog A).
Global Arguments Ret {A} a.
Global Arguments Call {A X} e k.

Fixpoint prog_bind {A B} (f : A → prog B) (p : prog A) : prog B :=
  match p with
  | Ret a => f a
  | Call e k => Call e (λ x, prog_bind f (k x))
  end.

Definition call {X} (e : ext X) : prog X := Call e Ret.

(** NumPy's array-by-scalar division. *)
Definition array_div (a : array) (s : float) : array :=
  (λ v, fdiv v s) <$> a.

End Program.

Global Instance prog_ret `{P : Platform} : MRet prog := λ A, Ret.
Global Instance prog_mbind `{P : Platform} : MBind prog := λ A B, prog_bind.

Section Script.
Context `{P : Platform}.

(** ** The notebook's code cells, in order *)

Definition fields : list string := ["RA"; "DEC"; "ALT"; "color"].

Definition props_dict : gmap string pyvalue :=
  dict_display
    [("CoordinatesType", PyStr "Spherical");
     ("MarkerScale", PyStr "Screen");
     ("PointScaleType", PyStr "Constant");
     ("ScaleFactor", PyStr "16");
     ("ShowFarSide", PyStr "True");
     ("TimeSeries", PyStr "False");
     ("AltUnit", PyStr "MegaParsecs");
     ("RaUnits", PyStr "Degrees")].

Definition fn : string := "radio_halo_1kpc_hdf5_part_0200_reduced.h5".

Definition vmin : float := flit (1 / 10 ^ 40).       (* 1.0e-40 *)
Definition vmax : float := flit (4 / 10 ^ 23).       (* 4.0e-23 *)

Definition fly_to : list float :=
  [flit 48; flit (-12); flit (6 * 10 ^ 11); flit 0; flit 0].

(** The notebook's text before the [update] cell names the entries of the
    navigation vector, in order: "Latitude: 48 degrees", "Longitude: -12
    degress", "Zoom: 6 x 10^11", "Rotation: 0 radians", "Angle: 0
    radians". *)
Definition fly_to_labels : list string :=
  ["Latitude"; "Longitude"; "Zoom"; "Rotation"; "Angle"].

Definition script : prog view_state :=
  wwt ← call WWTWindowsClient;
  layer ← call (new_layer wwt "Sky" "minihalo" fields);
  call (set_properties layer props_dict);;
  call (activate layer);;
  f ← call (h5py_File fn "r");
  cm_per_mpc ← call (unit_to Mpc cm);
  dx ← call (file_getitem f "x");
  ax ← call (dataset_read dx);
  let x := array_div ax cm_per_mpc in
  dy ← call (file_getitem f "y");
  ay ← call (dataset_read dy);
  let y := array_div ay cm_per_mpc in
  dz ← call (file_getitem f "z");
  az ← call (dataset_read dz);
  let z := array_div az cm_per_mpc in
  dc ← call (file_getitem f "radio");
  c ← call (dataset_read dc);
  color ← call (map_array_to_colors c "spectral" "log" vmin vmax);
  data ← call (convert_xyz_to_spherical x y z);
  let data := <["color" := Colors color]> data in
  call (file_close f);;
  call (update layer data true fly_to);;
  call (get_state wwt).

End Script.

(** ** Running a program against the external world *)

(** A call returns a value or raises a Python exception (named by its
    class). *)
Inductive outcome (X : Type) :=
  | Returns (x : X)
  | Raises (exn : string).
Global Arguments Returns {X} x.
Global Arguments Raises {X} exn.

Section Run.
Context `{P : Platform}.

(** An entry of the call log: the call and how it ended. *)
Record event := Event {
  ev_type : Type;
  ev_call : ext ev_type;
  ev_outcome : outcome ev_type;
}.
Global Arguments Event {_} _ _.

(** An implementation of the libraries and of the application behind
    them, over a world state [W] of its own. *)
Definition handler (W : Type) : Type := ∀ X, ext X → W → outcome X * W.

(** The calls are made one at a time; the first one that raises ends the
    run with that exception. *)
Fixpoint run {W A} (h : handler W) (p : prog A) (w : W)
  : list event * outcome A * W :=
  match p with
  | Ret a => ([], Returns a, w)
  | Call e k =>
      match h _ e w with
      | (Returns x, w') =>
          let '(tr, r, w'') := run h (k x) w' in
          (Event e (Returns x) :: tr, r, w'')
      | (Raises exn, w') => ([Event e (Raises exn)], Raises exn, w')
      end
  end.

Definition log_of {W A} (h : handler W) (p : prog A) (w : W) : list event :=
  (run h p w).1.1.
Definition outcome_of {W A} (h : handler W) (p : prog A) (w : W) : outcome A :=
  (run h p w).1.2.

(** ** Reading the log *)

(** The receiver of a method call on a client or a layer object. *)
Inductive receiver :=
  | OnClient (wwt : client)
  | OnLayer (l : layer).

(** Method calls on the client and on layers, by receiver and name; the
    constructor and the module-level functions are not method calls. *)
Definition method_call (e : event) : option (receiver * string) :=
  match ev_call e with
  | new_layer wwt _ _ _ => Some (OnClient wwt, "new_layer")
  | set_properties l _ => Some (OnLayer l, "set_properties")
  | activate l => Some (OnLayer l, "activate")
  | update l _ _ _ => Some (OnLayer l, "update")
  | get_state wwt => Some (OnClient wwt, "get_state")
  | _ => None
  end.

Definition method_name (e : event) : option string :=
  snd <$> method_call e.

(** The client a [WWTWindowsClient()] call returned. *)
Definition connected (e : event) : option client :=
  match e with
  | Event WWTWindowsClient (Returns wwt) => Some wwt
  | _ => None
  end.

(** The layer a [new_layer] call returned, with the fields it declared. *)
Definition created (e : event) : option (layer * list string) :=
  match e with
  | Event (new_layer _ _ _ fs) (Returns l) => Some (l, fs)
  | _ => None
  end.

Definition set_properties_arg (e : event) : option (gmap string pyvalue) :=
  match ev_call e with
  | set_properties _ props => Some props
  | _ => None
  end.

(** The keyword arguments of an [update] call. *)
Definition update_args (e : event)
  : option (gmap string column * bool * list float) :=
  match ev_call e with
  | update _ data purge_all fly => Some (data, purge_all, fly)
  | _ => None
  end.

Definition opened (e : event) : option (string * string * h5file) :=
  match e with
  | Event (h5py_File fn mode) (Returns f) => Some (fn, mode, f)
  | _ => None
  end.

(** [f[key]] calls, and the datasets they returned. *)
Definition getitem_call (e : event) : option (h5file * string) :=
  match ev_call e with
  | file_getitem f key => Some (f, key)
  | _ => None
  end.

Definition getitem_result (e : event) : option (string * dataset) :=
  match e with
  | Event (file_getitem _ key) (Returns d) => Some (key, d)
  | _ => None
  end.

(** [d[:]] calls, and the arrays they returned. *)
Definition read_call (e : event) : option dataset :=
  match ev_call e with
  | dataset_read d => Some d
  | _ => None
  end.

Definition read_result (e : event) : option (dataset * array) :=
  match e with
  | Event (dataset_read d) (Returns a) => Some (d, a)
  | _ => None
  end.

Definition close_call (e : event) : option h5file :=
  match ev_call e with
  | file_close f => Some f
  | _ => None
  end.

Definition unit_result (e : event) : option (unit_name * unit_name * float) :=
  match e with
  | Event (unit_to src dst) (Returns k) => Some (src, dst, k)
  | _ => None
  end.

Definition colors_args (e : event)
  : option (array * string * string * float * float) :=
  match ev_call e with
  | map_array_to_colors arr cmap scale lo hi => Some (arr, cmap, scale, lo, hi)
  | _ => None
  end.

Definition colors_result (e : event) : option (list color) :=
  match e with
  | Event (map_array_to_colors _ _ _ _ _) (Returns c) => Some c
  | _ => None
  end.

Definition convert_args (e : event) : option (array * array * array) :=
  match ev_call e with
  | convert_xyz_to_spherical x y z => Some (x, y, z)
  | _ => None
  end.

Definition convert_result (e : event) : option (gmap string column) :=
  match e with
  | Event (convert_xyz_to_spherical _ _ _) (Returns d) => Some d
  | _ => None
  end.

(** What a call does to the data file: [h5py.File] that returns opens it,
    [f[key]] and [d[:]] access it, [f.close()] closes it. *)
Inductive file_op := Open | Access | Close.

Definition file_op_of (e : event) : option file_op :=
  match e with
  | Event (h5py_File _ _) (Returns _) => Some Open
  | Event (file_getitem _ _) _ => Some Access
  | Event (dataset_read _) _ => Some Access
  | Event (file_close _) _ => Some Close
  | _ => None
  end.

(** One open, then accesses only, then one close, and nothing after. *)
Fixpoint accesses_then_close (ops : list file_op) : bool :=
  match ops with
  | [Close] => true
  | Access :: ops => accesses_then_close ops
  | _ => false
  end.

Definition opened_once_closed_once (ops : list file_op) : bool :=
  match ops with
  | Open :: ops => accesses_then_close ops
  | _ => false
  end.

(** The log of a run of the script in which every call returns. *)
Definition full_log (wwt : client) (l : layer) (f : h5file) (k : float)
    (dx dy dz dc : dataset) (ax ay az c : array) (col : list color)
    (d : gmap string column) (s : view_state) : list event :=
  [ Event WWTWindowsClient (Returns wwt);
    Event (new_layer wwt "Sky" "minihalo" fields) (Returns l);
    Event (set_properties l props_dict) (Returns ());
    Event (activate l) (Returns ());
    Event (h5py_File fn "r") (Returns f);
    Event (unit_to Mpc cm) (Returns k);
    Event (file_getitem f "x") (Returns dx);
    Event (dataset_read dx) (Returns ax);
    Event (file_getitem f "y") (Returns dy);
    Event (dataset_read dy) (Returns ay);
    Event (file_getitem f "z") (Returns dz);
    Event (dataset_read dz) (Returns az);
    Event (file_getitem f "radio") (Returns dc);
    Event (dataset_read dc) (Returns c);
    Event (map_array_to_colors c "spectral" "log" vmin vmax) (Returns col);
    Event (convert_xyz_to_spherical
             (array_div ax k) (array_div ay k) (array_div az k)) (Returns d);
    Event (file_close f) (Returns ());
    Event (update l (<["color" := Colors col]> d) true fly_to) (Returns ());
    Event (get_state wwt) (Returns s) ].

(** ** The shape of a run *)

Definition ev_returned (e : event) : bool :=
  match ev_outcome e with Returns _ => true | Raises _ => false end.

(** [h5py.File] calls, whether they returned or raised. *)
Definition file_call (e : event) : option (string * string) :=
  match ev_call e with
  | h5py_File fn mode => Some (fn, mode)
  | _ => None
  end.

(** What a call site writes down: the function and its literal arguments,
    without the objects and arrays that come from earlier calls. *)
Inductive call_site :=
  | SiteWWTWindowsClient
  | SiteNewLayer (frame name : string) (fields : list string)
  | SiteSetProperties (props : gmap string pyvalue)
  | SiteActivate
  | SiteUpdate (purge_all : bool) (fly_to : list float)
  | SiteGetState
  | SiteMapArrayToColors (cmap scale : string) (vmin vmax : float)
  | SiteConvertXyzToSpherical
  | SiteFile (fn mode : string)
  | SiteGetitem (key : string)
  | SiteRead
  | SiteClose
  | SiteUnitTo (src dst : unit_name).

Definition call_site_of (e : event) : call_site :=
  match ev_call e with
  | WWTWindowsClient => SiteWWTWindowsClient
  | new_layer _ frame name fs => SiteNewLayer frame name fs
  | set_properties _ props => SiteSetProperties props
  | activate _ => SiteActivate
  | update _ _ purge_all fly => SiteUpdate purge_all fly
  | get_state _ => SiteGetState
  | map_array_to_colors _ cmap scale lo hi =>
      SiteMapArrayToColors cmap scale lo hi
  | convert_xyz_to_spherical _ _ _ => SiteConvertXyzToSpherical
  | h5py_File fn mode => SiteFile fn mode
  | file_getitem _ key => SiteGetitem key
  | dataset_read _ => SiteRead
  | file_close _ => SiteClose
  | unit_to src dst => SiteUnitTo src dst
  end.

(** The call sites of the notebook's code cells, top to bottom. *)
Definition script_call_sites : list call_site :=
  [ SiteWWTWindowsClient;
    SiteNewLayer "Sky" "minihalo" fields;
    SiteSetProperties props_dict;
    SiteActivate;
    SiteFile fn "r";
    SiteUnitTo Mpc cm;
    SiteGetitem "x"; SiteRead;
    SiteGetitem "y"; SiteRead;
    SiteGetitem "z"; SiteRead;
    SiteGetitem "radio"; SiteRead;
    SiteMapArrayToColors "spectral" "log" vmin vmax;
    SiteConvertXyzToSpherical;
    SiteClose;
    SiteUpdate true fly_to;
    SiteGetState ].

(** ** The code cells one by one

    Each code cell as a program of its own, taking the variables earlier
    cells bound and returning the one later cells use. *)

Definition cell_connect : prog client :=
  call WWTWindowsClient.

Definition cell_new_layer (wwt : client) : prog layer :=
  call (new_layer wwt "Sky" "minihalo" fields).

Definition cell_set_properties (layer : layer) : prog unit :=
  call (set_properties layer props_dict).

Definition cell_activate (layer : layer) : prog unit :=
  call (activate layer).

Definition cell_load : prog (gmap string column) :=
  f ← call (h5py_File fn "r");
  cm_per_mpc ← call (unit_to Mpc cm);
  dx ← call (file_getitem f "x");
  ax ← call (dataset_read dx);
  let x := array_div ax cm_per_mpc in
  dy ← call (file_getitem f "y");
  ay ← call (dataset_read dy);
  let y := array_div ay cm_per_mpc in
  dz ← call (file_getitem f "z");
  az ← call (dataset_read dz);
  let z := array_div az cm_per_mpc in
  dc ← call (file_getitem f "radio");
  c ← call (dataset_read dc);
  color ← call (map_array_to_colors c "spectral" "log" vmin vmax);
  data ← call (convert_xyz_to_spherical x y z);
  let data := <["color" := Colors color]> data in
  call (file_close f);;
  mret data.

Definition cell_update (layer : layer) (data : gmap string column)
  : prog unit :=
  call (update layer data true fly_to).

Definition cell_get_state (wwt : client) : prog view_state :=
  call (get_state wwt).

(** Running all cells, top to bottom. *)
Definition notebook : prog view_state :=
  wwt ← cell_connect;
  layer ← cell_new_layer wwt;
  cell_set_properties layer;;
  cell_activate layer;;
  data ← cell_load;
  cell_update layer data;;
  cell_get_state wwt.

End Run.

(** ** The library functions the notebook imports from pywwt.windows *)

Section Models.
Context `{P : Platform}.

(** Clamping to the bounds: a value below [lo] becomes [lo], one above
    [hi] becomes [hi], any other value is kept. *)
Definition clamp (lo hi v : float) : float :=
  if flt v lo then lo else if flt hi v then hi else v.

(** Modelled from the spec: [map_array_to_colors] is defined in
    pywwt.windows, which is not among the sources.  The spec says of it:
    "the color-mapping utility returns an array of the same length as its
    scalar input, clamped to the given min/max", and "mapping a scalar
    array to RGB colors via a named color scale with logarithmic scaling
    and explicit min/max clamp bounds".  Each entry is clamped and then
    looked up; [lookup] is the plotting library's colour scale, taking the
    scale's name, the scaling and the bounds, and is left open. *)
Definition map_array_to_colors_model
    (lookup : string → string → float → float → float → color)
    (arr : array) (cmap scale : string) (lo hi : float) : list color :=
  (λ v, lookup cmap scale lo hi (clamp lo hi v)) <$> arr.

Fixpoint map3 (g : float → float → float → float) (x y z : array) : array :=
  match x, y, z with
  | a :: x, b :: y, c :: z => g a b c :: map3 g x y z
  | _, _, _ => []
  end.

(** Modelled from the spec: [convert_xyz_to_spherical] is defined in
    pywwt.windows, which is not among the sources.  The spec's glossary:
    "Spherical coordinates (here): an (RA, DEC, altitude) triple — angular
    longitude, angular latitude, and radial distance"; the notebook
    declares "RA", "DEC" and "ALT" as the layer's fields for "the
    spherical coordinates of the points".  The result holds one column per
    coordinate under these names, with one entry per point; the three
    coordinate functions [lon], [lat], [rad] are left open. *)
Definition convert_xyz_to_spherical_model
    (lon lat rad : float → float → float → float) (x y z : array)
  : gmap string column :=
  dict_display
    [("RA", Floats (map3 lon x y z));
     ("DEC", Floats (map3 lat x y z));
     ("ALT", Floats (map3 rad x y z))].

(** A world whose conversion is the modelled one whenever it returns. *)
Definition converts_as_modelled {W} (h : handler W)
    (lon lat rad : float → float → float → float) : Prop :=
  ∀ x y z w d,
    (h _ (convert_xyz_to_spherical x y z) w).1 = Returns d →
    d = convert_xyz_to_spherical_model lon lat rad x y z.

End Models.

(** ** A simulated world, for running the script

    Exact rational arithmetic, with quotients in lowest terms, stands for
    the floats; a colour is the clamped value itself; the view state is
    the last navigation vector. *)

Global Instance Q_platform : Platform := {|
  float := Q;
  color := Q;
  view_state := list Q;
  flit := λ q, q;
  fdiv := λ a b, Qred (a / b);
  flt := λ a b, negb (Qle_bool b a);
|}.

Record sim := Sim {
  fresh : N;                            (* next object id *)
  on_disk : gmap string (list Q);       (* the datasets of the file *)
  handed_out : gmap N string;           (* dataset object id to its name *)
  contents : gmap string column;        (* what the layer holds *)
  view : list Q;                        (* where the camera is *)
}.

Definition bump (w : sim) : sim :=
  Sim (fresh w + 1) (on_disk w) (handed_out w) (contents w) (view w).

(** Centimetres per megaparsec, 3.0856775814913673e24. *)
Definition sim_cm_per_mpc : Q := 30856775814913673 * 10 ^ 8.

Definition sim_unit_to (src dst : unit_name) : Q :=
  match src, dst with
  | Mpc, cm => sim_cm_per_mpc
  | cm, Mpc => 1 / sim_cm_per_mpc
  | _, _ => 1
  end.

Definition sim_lookup (cmap scale : string) (lo hi v : Q) : Q := v.
Definition sim_lon (x y z : Q) : Q := Qred (y - x).
Definition sim_lat (x y z : Q) : Q := z.
Definition sim_rad (x y z : Q) : Q := Qred (x * x + y * y + z * z).

Definition sim_handler : handler sim := λ X e,
  match e in ext X return sim → outcome X * sim with
  | WWTWindowsClient => λ w, (Returns (Client (fresh w)), bump w)
  | new_layer _ _ _ _ => λ w, (Returns (Layer (fresh w)), bump w)
  | set_properties _ _ => λ w, (Returns (), w)
  | activate _ => λ w, (Returns (), w)
  | update _ data purge_all fly => λ w,
      (Returns (),
       Sim (fresh w) (on_disk w) (handed_out w)
           (if purge_all then data else contents w ∪ data) fly)
  | get_state _ => λ w, (Returns (view w), w)
  | map_array_to_colors arr cmap scale lo hi => λ w,
      (Returns (map_array_to_colors_model sim_lookup arr cmap scale lo hi), w)
  | convert_xyz_to_spherical x y z => λ w,
      (Returns (convert_xyz_to_spherical_model sim_lon sim_lat sim_rad x y z), w)
  | h5py_File _ _ => λ w, (Returns (H5File (fresh w)), bump w)
  | file_getitem _ key => λ w,
      match on_disk w !! key with
      | Some _ =>
          (Returns (Dataset (fresh w)),
           Sim (fresh w + 1) (on_disk w) (<[fresh w := key]> (handed_out w))
               (contents w) (view w))
      | None => (Raises "KeyError", w)
      end
  | dataset_read (Dataset id) => λ w,
      match handed_out w !! id ≫= (on_disk w !!.) with
      | Some a => (Returns a, w)
      | None => (Raises "ValueError", w)
      end
  | file_close _ => λ w, (Returns (), w)
  | unit_to src dst => λ w, (Returns (sim_unit_to src dst), w)
  end.

(** A world with a layer that already holds something, before a file. *)
Definition sim_world (disk : gmap string (list Q)) : sim :=
  Sim 0 disk ∅ (dict_display [("old", Floats [1; 2]%Q)]) [].

(** A file with two points. *)
Definition two_points : gmap string (list Q) :=
  dict_display
    [("x", [3 * sim_cm_per_mpc; 0]%Q);
     ("y", [0; 4 * sim_cm_per_mpc]%Q);
     ("z", [4 * sim_cm_per_mpc; 3 * sim_cm_per_mpc]%Q);
     ("radio", [1 / 10 ^ 30; 1]%Q)].

(** The log and the outcome of the script run on that file. *)
Definition sim_log : list event :=
  log_of sim_handler script (sim_world two_points).
Definition sim_outcome : outcome (list Q) :=
  outcome_of sim_handler script (sim_world two_points).

(** A file that lacks the dataset "x". *)
Definition no_x : gmap string (list Q) :=
  dict_display
    [("y", [0; 4]%Q);
     ("z", [4; 3]%Q);
     ("radio", [1 / 10 ^ 30; 1]%Q)].

(** A world in which the file is fine and the application drops the
    connection once the layer is updated: [get_state] raises. *)
Definition sim_disconnecting : handler sim := λ X e,
  match e in ext X return sim → outcome X * sim with
  | get_state _ => λ w, (Raises "ConnectionError", w)
  | e => sim_handler _ e
  end.

(** * Properties of the script *)

(** Cases on the outcome of the next call of a run against [h]. *)
Ltac next_call h :=
  match goal with
  | |- context [h ?X ?e ?w] =>
      let x := fresh "x" in
      let exn := fresh "exn" in
      let w' := fresh "w" in
      let E := fresh "E" in
      destruct (h X e w) as [[x|exn] w'] eqn:E;
      cbn -[props_dict fields fn vmin vmax fly_to]
  end.

Ltac all_runs h :=
  unfold log_of, outcome_of, script;
  cbn -[props_dict fields fn vmin vmax fly_to];
  repeat next_call h.

Ltac units := repeat match goal with u : () |- _ => destruct u end.

Lemma dict_display_snoc {V} (items : list (string * V)) k v :
  dict_display (items ++ [(k, v)]) = <[k := v]> (dict_display items).
Proof. unfold dict_display. by rewrite foldl_app. Qed.

Lemma dom_dict_display {V} (items : list (string * V)) :
  dom (dict_display items) = list_to_set items.*1.
Proof.
  induction items as [|[k v] items IH] using rev_ind.
  - unfold dict_display; cbn. apply dom_empty_L.
  - rewrite dict_display_snoc, dom_insert_L, fmap_app, list_to_set_app_L, IH.
    cbn. rewrite union_empty_r_L. apply (comm_L _).
Qed.

Lemma array_div_lookup `{P : Platform} (a : array) (k : float) i v :
  a !! i = Some v → array_div a k !! i = Some (fdiv v k).
Proof. intros H. unfold array_div. by rewrite list_lookup_fmap, H. Qed.

Lemma array_div_length `{P : Platform} (a : array) (k : float) :
  length (array_div a k) = length a.
Proof. unfold array_div. apply length_fmap. Qed.

Section Runs.
Context `{P : Platform} {W : Type} (h : handler W).

(** A run in which every call returns has the full log, and its data dict
    is what the conversion returned. *)
Lemma run_script_complete w s :
  outcome_of h script w = Returns s →
  ∃ wwt l f k dx dy dz dc ax ay az c col d,
    log_of h script w = full_log wwt l f k dx dy dz dc ax ay az c col d s ∧
    ∃ w',
      (h _ (convert_xyz_to_spherical
              (array_div ax k) (array_div ay k) (array_div az k)) w').1
      = Returns d.
Proof.
  all_runs h; intros H; try discriminate H.
  injection H as ->. units.
  do 14 eexists. split; [reflexivity|].
  match goal with
  | E : h _ (convert_xyz_to_spherical _ _ _) ?w' = _ |- _ =>
      exists w'; by rewrite E
  end.
Qed.

(** In any run, also one cut short by an exception, the method calls on
    the client and the layer are an initial part of the five. *)
Lemma method_calls_any_run w :
  omap method_name (log_of h script w) `prefix_of`
    ["new_layer"; "set_properties"; "activate"; "update"; "get_state"].
Proof. all_runs h; eexists; reflexivity. Qed.

(** In any run the file operations are an initial part of: open, eight
    accesses, close. *)
Lemma file_ops_any_run w :
  omap file_op_of (log_of h script w) `prefix_of`
    Open :: replicate 8 Access ++ [Close].
Proof. all_runs h; eexists; reflexivity. Qed.

(** C1. In a run in which every call returns, the method calls made on
    the client and on layers are exactly [new_layer], [set_properties],
    [activate], [update], [get_state], once each and in this order:
    [new_layer] and [get_state] on the client the constructor returned,
    the other three on the layer [new_layer] returned. *)
Theorem script_method_calls w s :
  outcome_of h script w = Returns s →
  ∃ wwt l,
    omap connected (log_of h script w) = [wwt] ∧
    omap created (log_of h script w) = [(l, fields)] ∧
    omap method_call (log_of h script w)
    = [(OnClient wwt, "new_layer"); (OnLayer l, "set_properties");
       (OnLayer l, "activate"); (OnLayer l, "update");
       (OnClient wwt, "get_state")] ∧
    omap method_name (log_of h script w)
    = ["new_layer"; "set_properties"; "activate"; "update"; "get_state"].
Proof.
  intros H.
  destruct (run_script_complete w s H)
    as (wwt & l & f & k & dx & dy & dz & dc & ax & ay & az & c & col & d
        & -> & _).
  exists wwt, l. done.
Qed.

(** C2. The dict passed to [set_properties] is [props_dict]; its keys are
    the eight property names, and each is bound to a string: "Spherical",
    "Screen", "Constant", "16", "True", "False", "MegaParsecs",
    "Degrees". *)
Theorem props_dict_passed_and_items w s :
  outcome_of h script w = Returns s →
  omap set_properties_arg (log_of h script w) = [props_dict] ∧
  dom props_dict
  = list_to_set ["CoordinatesType"; "MarkerScale"; "PointScaleType";
                 "ScaleFactor"; "ShowFarSide"; "TimeSeries"; "AltUnit";
                 "RaUnits"] ∧
  size props_dict = 8%nat ∧
  map_Forall (λ _ v, is_str v = true) props_dict ∧
  props_dict !! "CoordinatesType" = Some (PyStr "Spherical") ∧
  props_dict !! "MarkerScale" = Some (PyStr "Screen") ∧
  props_dict !! "PointScaleType" = Some (PyStr "Constant") ∧
  props_dict !! "ScaleFactor" = Some (PyStr "16") ∧
  props_dict !! "ShowFarSide" = Some (PyStr "True") ∧
  props_dict !! "TimeSeries" = Some (PyStr "False") ∧
  props_dict !! "AltUnit" = Some (PyStr "MegaParsecs") ∧
  props_dict !! "RaUnits" = Some (PyStr "Degrees").
Proof.
  intros H.
  destruct (run_script_complete w s H)
    as (wwt & l & f & k & dx & dy & dz & dc & ax & ay & az & c & col & d
        & -> & _).
  split; [done|].
  split; [unfold props_dict; by rewrite dom_dict_display|].
  split; [by vm_compute|].
  split; [|by vm_compute].
  unfold props_dict, dict_display; cbn.
  repeat (apply map_Forall_insert_2; [done|]).
  apply map_Forall_empty.
Qed.

(** C3. In a run in which every call returns, one file is opened, and the
    items taken from it are "x", "y", "z" and "radio", in this order and
    no other; the datasets read are the four these gave. *)
Theorem script_reads_four_datasets w s :
  outcome_of h script w = Returns s →
  ∃ f dx dy dz dc,
    omap opened (log_of h script w) = [(fn, "r", f)] ∧
    omap getitem_call (log_of h script w)
    = [(f, "x"); (f, "y"); (f, "z"); (f, "radio")] ∧
    omap getitem_result (log_of h script w)
    = [("x", dx); ("y", dy); ("z", dz); ("radio", dc)] ∧
    omap read_call (log_of h script w) = [dx; dy; dz; dc].
Proof.
  intros H.
  destruct (run_script_complete w s H)
    as (wwt & l & f & k & dx & dy & dz & dc & ax & ay & az & c & col & d
        & -> & _).
  exists f, dx, dy, dz, dc. done.
Qed.

(** C4. The one [update] call passes as [fly_to] the five numbers 48.0,
    -12.0, 6.0e11, 0.0, 0.0, which the notebook names, in this order,
    latitude, longitude, zoom, rotation and angle. *)
Theorem script_fly_to w s :
  outcome_of h script w = Returns s →
  ∃ data purge_all,
    omap update_args (log_of h script w) = [(data, purge_all, fly_to)] ∧
    fly_to = [flit 48; flit (-12); flit (6 * 10 ^ 11); flit 0; flit 0] ∧
    length fly_to = 5%nat ∧
    zip fly_to_labels fly_to
    = [("Latitude", flit 48); ("Longitude", flit (-12));
       ("Zoom", flit (6 * 10 ^ 11)); ("Rotation", flit 0);
       ("Angle", flit 0)].
Proof.
  intros H.
  destruct (run_script_complete w s H)
    as (wwt & l & f & k & dx & dy & dz & dc & ax & ay & az & c & col & d
        & -> & _).
  do 2 eexists. done.
Qed.

(** C5. In a run in which every call returns, the arrays passed to the
    conversion are the arrays read from "x", "y" and "z", point by point,
    each entry divided by the factor [u.Mpc.to(u.cm)] returned; the ALT
    column handed to the layer is the one the conversion returned for
    these arguments, and the layer's property AltUnit is "MegaParsecs". *)
Theorem coordinates_divided_before_conversion w s :
  outcome_of h script w = Returns s →
  ∃ k dx dy dz dc ax ay az c d data purge_all fly,
    omap unit_result (log_of h script w) = [(Mpc, cm, k)] ∧
    omap getitem_result (log_of h script w)
    = [("x", dx); ("y", dy); ("z", dz); ("radio", dc)] ∧
    omap read_result (log_of h script w)
    = [(dx, ax); (dy, ay); (dz, az); (dc, c)] ∧
    omap convert_args (log_of h script w)
    = [(array_div ax k, array_div ay k, array_div az k)] ∧
    (∀ i v, ax !! i = Some v → array_div ax k !! i = Some (fdiv v k)) ∧
    (∀ i v, ay !! i = Some v → array_div ay k !! i = Some (fdiv v k)) ∧
    (∀ i v, az !! i = Some v → array_div az k !! i = Some (fdiv v k)) ∧
    length (array_div ax k) = length ax ∧
    length (array_div ay k) = length ay ∧
    length (array_div az k) = length az ∧
    omap convert_result (log_of h script w) = [d] ∧
    omap update_args (log_of h script w) = [(data, purge_all, fly)] ∧
    data !! "ALT" = d !! "ALT" ∧
    omap set_properties_arg (log_of h script w) = [props_dict] ∧
    props_dict !! "AltUnit" = Some (PyStr "MegaParsecs").
Proof.
  intros H.
  destruct (run_script_complete w s H)
    as (wwt & l & f & k & dx & dy & dz & dc & ax & ay & az & c & col & d
        & -> & _).
  exists k, dx, dy, dz, dc, ax, ay, az, c, d.
  do 3 eexists. cbn -[props_dict].
  repeat split; try reflexivity;
    try apply array_div_lookup; try apply array_div_length.
  by rewrite lookup_insert_ne.
Qed.

(** C6. In a run in which every call returns, [map_array_to_colors] is
    called once, with the array read from "radio", the colour scale
    "spectral", the scaling "log" and the bounds 1.0e-40 and 4.0e-23, and
    [convert_xyz_to_spherical] is called once, with the three coordinate
    arrays. *)
Theorem color_and_conversion_arguments w s :
  outcome_of h script w = Returns s →
  ∃ k dx dy dz dc ax ay az c,
    omap unit_result (log_of h script w) = [(Mpc, cm, k)] ∧
    omap getitem_result (log_of h script w)
    = [("x", dx); ("y", dy); ("z", dz); ("radio", dc)] ∧
    omap read_result (log_of h script w)
    = [(dx, ax); (dy, ay); (dz, az); (dc, c)] ∧
    omap colors_args (log_of h script w)
    = [(c, "spectral", "log", flit (1 / 10 ^ 40), flit (4 / 10 ^ 23))] ∧
    omap convert_args (log_of h script w)
    = [(array_div ax k, array_div ay k, array_div az k)].
Proof.
  intros H.
  destruct (run_script_complete w s H)
    as (wwt & l & f & k & dx & dy & dz & dc & ax & ay & az & c & col & d
        & -> & _).
  exists k, dx, dy, dz, dc, ax, ay, az, c. done.
Qed.

(** C7, amended. In a run in which every call returns, the data file is
    opened once and closed once, by calls on the same handle, the eight
    accesses (four items, four reads) come between the two, and nothing
    touches the file after the close. *)
Theorem file_opened_once_closed_once w s :
  outcome_of h script w = Returns s →
  ∃ f,
    omap opened (log_of h script w) = [(fn, "r", f)] ∧
    omap close_call (log_of h script w) = [f] ∧
    omap file_op_of (log_of h script w)
    = Open :: replicate 8 Access ++ [Close] ∧
    opened_once_closed_once (omap file_op_of (log_of h script w)) = true.
Proof.
  intros H.
  destruct (run_script_complete w s H)
    as (wwt & l & f & k & dx & dy & dz & dc & ax & ay & az & c & col & d
        & -> & _).
  exists f. done.
Qed.

(** C9. With the conversion as modelled, in a run in which every call
    returns, the keys of the data dict passed to [update] are the
    conversion's RA, DEC and ALT and the added "color", which is the set
    of the fields declared by [new_layer]. *)
Theorem declared_fields_are_data_keys lon lat rad w s :
  converts_as_modelled h lon lat rad →
  outcome_of h script w = Returns s →
  ∃ l fs d col data purge_all fly,
    omap created (log_of h script w) = [(l, fs)] ∧
    fs = ["RA"; "DEC"; "ALT"; "color"] ∧
    omap convert_result (log_of h script w) = [d] ∧
    dom d = list_to_set ["RA"; "DEC"; "ALT"] ∧
    omap colors_result (log_of h script w) = [col] ∧
    omap update_args (log_of h script w) = [(data, purge_all, fly)] ∧
    data = <["color" := Colors col]> d ∧
    dom data = list_to_set fs.
Proof.
  intros Hconv H.
  destruct (run_script_complete w s H)
    as (wwt & l & f & k & dx & dy & dz & dc & ax & ay & az & c & col & d
        & -> & w' & Hd).
  apply Hconv in Hd.
  assert (dom d = list_to_set ["RA"; "DEC"; "ALT"]) as Hdom.
  { subst d. unfold convert_xyz_to_spherical_model.
    by rewrite dom_dict_display. }
  exists l, fields, d, col. do 3 eexists.
  repeat split; try reflexivity; [done|].
  rewrite dom_insert_L, Hdom. unfold fields. set_solver.
Qed.

End Runs.

Section ColorMapping.
Context `{P : Platform}.

(** C8. The modelled [map_array_to_colors] returns as many entries as its
    input has, and each is the colour looked up for the input entry
    clamped to the bounds: an entry below [lo] is looked up as [lo], one
    above [hi] as [hi], and an entry within the bounds as itself.  When
    the bounds are in order, the value looked up is neither below [lo]
    nor above [hi]. *)
Theorem map_array_to_colors_length_and_clamp
    (lookup : string → string → float → float → float → color)
    (arr : array) (cmap scale : string) (lo hi : float) :
  length (map_array_to_colors_model lookup arr cmap scale lo hi) = length arr ∧
  ∀ i v, arr !! i = Some v →
    map_array_to_colors_model lookup arr cmap scale lo hi !! i
    = Some (lookup cmap scale lo hi (clamp lo hi v)) ∧
    (flt v lo = true → clamp lo hi v = lo) ∧
    (flt v lo = false → flt hi v = true → clamp lo hi v = hi) ∧
    (flt v lo = false → flt hi v = false → clamp lo hi v = v) ∧
    (flt lo lo = false → flt hi hi = false → flt hi lo = false →
     flt (clamp lo hi v) lo = false ∧ flt hi (clamp lo hi v) = false).
Proof.
  unfold map_array_to_colors_model. split.
  - apply length_fmap.
  - intros i v Hv. split; [by rewrite list_lookup_fmap, Hv|].
    unfold clamp.
    destruct (flt v lo) eqn:Hlow; [|destruct (flt hi v) eqn:Hhigh];
      repeat split; intros; congruence.
Qed.

End ColorMapping.

(** * The script run on the simulated world *)

Example sim_run_returns :
  outcome_of sim_handler script (sim_world two_points)
  = Returns [48; -12; 600000000000; 0; 0]%Q.
Proof. by vm_compute. Qed.

Example sim_run_layer_contents :
  let w := (run sim_handler script (sim_world two_points)).2 in
  contents w !! "old" = None ∧
  contents w !! "ALT" = Some (Floats [25; 25]%Q) ∧
  contents w !! "color" = Some (Colors [1 / 10 ^ 30; 4 / 10 ^ 23]%Q).
Proof. by vm_compute. Qed.

Lemma sim_converts_as_modelled :
  converts_as_modelled sim_handler sim_lon sim_lat sim_rad.
Proof. intros x y z w d Hd. cbn in Hd. by injection Hd as <-. Defined.

Lemma script_method_calls_witness :
  sim_outcome = Returns [48; -12; 600000000000; 0; 0]%Q ∧
  ∃ wwt l,
    omap connected sim_log = [wwt] ∧
    omap created sim_log = [(l, fields)] ∧
    omap method_call sim_log
    = [(OnClient wwt, "new_layer"); (OnLayer l, "set_properties");
       (OnLayer l, "activate"); (OnLayer l, "update");
       (OnClient wwt, "get_state")] ∧
    omap method_name sim_log
    = ["new_layer"; "set_properties"; "activate"; "update"; "get_state"].
Proof.
  split; [by vm_compute|].
  apply (script_method_calls sim_handler (sim_world two_points)
           [48; -12; 600000000000; 0; 0]%Q).
  by vm_compute.
Defined.

Lemma props_dict_passed_and_items_witness :
  sim_outcome = Returns [48; -12; 600000000000; 0; 0]%Q ∧
  omap set_properties_arg sim_log = [props_dict] ∧
  dom props_dict
  = list_to_set ["CoordinatesType"; "MarkerScale"; "PointScaleType";
                 "ScaleFactor"; "ShowFarSide"; "TimeSeries"; "AltUnit";
                 "RaUnits"] ∧
  size props_dict = 8%nat ∧
  map_Forall (λ _ v, is_str v = true) props_dict ∧
  props_dict !! "CoordinatesType" = Some (PyStr "Spherical") ∧
  props_dict !! "MarkerScale" = Some (PyStr "Screen") ∧
  props_dict !! "PointScaleType" = Some (PyStr "Constant") ∧
  props_dict !! "ScaleFactor" = Some (PyStr "16") ∧
  props_dict !! "ShowFarSide" = Some (PyStr "True") ∧
  props_dict !! "TimeSeries" = Some (PyStr "False") ∧
  props_dict !! "AltUnit" = Some (PyStr "MegaParsecs") ∧
  props_dict !! "RaUnits" = Some (PyStr "Degrees").
Proof.
  split; [by vm_compute|].
  apply (props_dict_passed_and_items sim_handler (sim_world two_points)
           [48; -12; 600000000000; 0; 0]%Q).
  by vm_compute.
Defined.

Lemma script_reads_four_datasets_witness :
  sim_outcome = Returns [48; -12; 600000000000; 0; 0]%Q ∧
  ∃ f dx dy dz dc,
    omap opened sim_log = [(fn, "r", f)] ∧
    omap getitem_call sim_log = [(f, "x"); (f, "y"); (f, "z"); (f, "radio")] ∧
    omap getitem_result sim_log
    = [("x", dx); ("y", dy); ("z", dz); ("radio", dc)] ∧
    omap read_call sim_log = [dx; dy; dz; dc].
Proof.
  split; [by vm_compute|].
  apply (script_reads_four_datasets sim_handler (sim_world two_points)
           [48; -12; 600000000000; 0; 0]%Q).
  by vm_compute.
Defined.

Lemma script_fly_to_witness :
  sim_outcome = Returns [48; -12; 600000000000; 0; 0]%Q ∧
  ∃ data purge_all,
    omap update_args sim_log
    = [(data, purge_all, [48; -12; 600000000000; 0; 0]%Q)].
Proof.
  split; [by vm_compute|].
  destruct (script_fly_to sim_handler (sim_world two_points)
              [48; -12; 600000000000; 0; 0]%Q)
    as (data & purge_all & Hlog & _); [by vm_compute|].
  exists data, purge_all. exact Hlog.
Defined.

Lemma coordinates_divided_before_conversion_witness :
  sim_outcome = Returns [48; -12; 600000000000; 0; 0]%Q ∧
  ∃ d data purge_all fly,
    omap convert_args sim_log = [([3; 0]%Q, [0; 4]%Q, [4; 3]%Q)] ∧
    omap convert_result sim_log = [d] ∧
    omap update_args sim_log = [(data, purge_all, fly)] ∧
    data !! "ALT" = d !! "ALT".
Proof.
  split; [by vm_compute|].
  destruct (coordinates_divided_before_conversion
              sim_handler (sim_world two_points)
              [48; -12; 600000000000; 0; 0]%Q)
    as (k & dx & dy & dz & dc & ax & ay & az & c & d & data & purge_all & fly
        & _ & _ & _ & _ & _ & _ & _ & _ & _ & _ & Hd & Hup & Halt & _);
    [by vm_compute|].
  exists d, data, purge_all, fly.
  split; [by vm_compute|]. split; [exact Hd|]. split; [exact Hup|exact Halt].
Defined.

Lemma color_and_conversion_arguments_witness :
  sim_outcome = Returns [48; -12; 600000000000; 0; 0]%Q ∧
  ∃ k dx dy dz dc ax ay az c,
    omap unit_result sim_log = [(Mpc, cm, k)] ∧
    omap getitem_result sim_log
    = [("x", dx); ("y", dy); ("z", dz); ("radio", dc)] ∧
    omap read_result sim_log = [(dx, ax); (dy, ay); (dz, az); (dc, c)] ∧
    omap colors_args sim_log
    = [(c, "spectral", "log", flit (1 / 10 ^ 40), flit (4 / 10 ^ 23))] ∧
    omap convert_args sim_log
    = [(array_div ax k, array_div ay k, array_div az k)].
Proof.
  split; [by vm_compute|].
  apply (color_and_conversion_arguments sim_handler (sim_world two_points)
           [48; -12; 600000000000; 0; 0]%Q).
  by vm_compute.
Defined.

Lemma file_opened_once_closed_once_witness :
  sim_outcome = Returns [48; -12; 600000000000; 0; 0]%Q ∧
  ∃ f,
    omap opened sim_log = [(fn, "r", f)] ∧
    omap close_call sim_log = [f] ∧
    omap file_op_of sim_log = Open :: replicate 8 Access ++ [Close] ∧
    opened_once_closed_once (omap file_op_of sim_log) = true.
Proof.
  split; [by vm_compute|].
  apply (file_opened_once_closed_once sim_handler (sim_world two_points)
           [48; -12; 600000000000; 0; 0]%Q).
  by vm_compute.
Defined.

(** C7 as stated fails: when the file has no dataset "x", [f["x"]] raises
    after the file was opened, the run ends there, and [f.close()] is
    never called. *)
Lemma file_left_open_when_item_missing :
  outcome_of sim_handler script (sim_world no_x) = Raises "KeyError" ∧
  omap file_op_of (log_of sim_handler script (sim_world no_x))
  = [Open; Access] ∧
  omap close_call (log_of sim_handler script (sim_world no_x)) = [] ∧
  opened_once_closed_once
    (omap file_op_of (log_of sim_handler script (sim_world no_x))) = false.
Proof. by vm_compute. Qed.

Lemma map_array_to_colors_length_and_clamp_witness :
  length (map_array_to_colors_model (P := Q_platform) sim_lookup
            [1 / 10 ^ 50; 1 / 10 ^ 30; 1]%Q "spectral" "log" vmin vmax)
  = 3%nat ∧
  map_array_to_colors_model (P := Q_platform) sim_lookup
    [1 / 10 ^ 50; 1 / 10 ^ 30; 1]%Q "spectral" "log" vmin vmax !! 2%nat
  = Some (sim_lookup "spectral" "log" vmin vmax
            (clamp (P := Q_platform) vmin vmax 1%Q)) ∧
  clamp (P := Q_platform) vmin vmax (1 / 10 ^ 50)%Q = vmin ∧
  clamp (P := Q_platform) vmin vmax (1 / 10 ^ 30)%Q = (1 / 10 ^ 30)%Q ∧
  clamp (P := Q_platform) vmin vmax 1%Q = vmax ∧
  flt (clamp (P := Q_platform) vmin vmax 1%Q) vmin = false ∧
  flt vmax (clamp (P := Q_platform) vmin vmax 1%Q) = false.
Proof.
  destruct (map_array_to_colors_length_and_clamp (P := Q_platform)
              sim_lookup [1 / 10 ^ 50; 1 / 10 ^ 30; 1]%Q "spectral" "log"
              vmin vmax) as [Hlen Hall].
  destruct (Hall 0%nat (1 / 10 ^ 50)%Q eq_refl) as (_ & Hbelow & _).
  destruct (Hall 1%nat (1 / 10 ^ 30)%Q eq_refl) as (_ & _ & _ & Hwithin & _).
  destruct (Hall 2%nat 1%Q eq_refl) as (Hlook & _ & Habove & _ & Hbounds).
  split; [exact Hlen|]. split; [exact Hlook|].
  split; [apply Hbelow; reflexivity|].
  split; [apply Hwithin; reflexivity|].
  split; [apply Habove; reflexivity|].
  apply Hbounds; reflexivity.
Defined.

Lemma declared_fields_are_data_keys_witness :
  converts_as_modelled sim_handler sim_lon sim_lat sim_rad ∧
  sim_outcome = Returns [48; -12; 600000000000; 0; 0]%Q ∧
  ∃ l fs d col data purge_all fly,
    omap created sim_log = [(l, fs)] ∧
    fs = ["RA"; "DEC"; "ALT"; "color"] ∧
    omap convert_result sim_log = [d] ∧
    dom d = list_to_set ["RA"; "DEC"; "ALT"] ∧
    omap colors_result sim_log = [col] ∧
    omap update_args sim_log = [(data, purge_all, fly)] ∧
    data = <["color" := Colors col]> d ∧
    dom data = list_to_set fs.
Proof.
  split; [exact sim_converts_as_modelled|].
  split; [by vm_compute|].
  apply (declared_fields_are_data_keys sim_handler sim_lon sim_lat sim_rad
           (sim_world two_points) [48; -12; 600000000000; 0; 0]%Q).
  - exact sim_converts_as_modelled.
  - by vm_compute.
Defined.

(** * Runs cut short, and the cells on their own *)

Ltac load_cell_runs h :=
  unfold log_of, outcome_of, cell_load;
  cbn -[props_dict fields fn vmin vmax fly_to];
  repeat next_call h.

Section MoreRuns.
Context `{P : Platform} {W : Type} (h : handler W).

(** Running the cells top to bottom is the script. *)
Lemma notebook_is_script : notebook = script.
Proof. reflexivity. Qed.

(** X1. Whatever the calls return or raise, the calls of a run are an
    initial part of the notebook's nineteen call sites, each with the
    literal arguments written there: no returned value changes which call
    comes next or what constants it is given. *)
Theorem call_sites_any_run w :
  call_site_of <$> log_of h script w `prefix_of` script_call_sites ∧
  (length (log_of h script w) ≤ 19)%nat.
Proof. all_runs h; (split; [eexists; reflexivity | cbn; lia]). Qed.

(** X2. A run that returns has made all nineteen calls, every one of
    them returned, and its value is what [get_state], the last of them,
    returned.  A run that raises has either made fewer than nineteen
    calls or made them all with [get_state] raising. *)
Theorem run_returns_after_all_calls w :
  match outcome_of h script w with
  | Returns s =>
      call_site_of <$> log_of h script w = script_call_sites ∧
      Forall (λ e, ev_returned e = true) (log_of h script w) ∧
      ∃ wwt, last (log_of h script w) = Some (Event (get_state wwt) (Returns s))
  | Raises exn =>
      (length (log_of h script w) < 19)%nat ∨
      (length (log_of h script w) = 19%nat ∧
       ∃ wwt,
         last (log_of h script w) = Some (Event (get_state wwt) (Raises exn)))
  end.
Proof.
  all_runs h;
    first [ left; cbn; lia
          | right; split; [reflexivity | by eexists]
          | split; [reflexivity|];
            split; [repeat constructor | by eexists] ].
Qed.

(** X3. When the run reaches [h5py.File] and never calls [update], it
    ended with an exception, and by then the layer has been created with
    the four fields, given [props_dict] and activated: a failure while
    the data is loaded leaves a configured layer without data. *)
Theorem layer_without_data_when_loading_fails w :
  omap file_call (log_of h script w) ≠ [] →
  omap update_args (log_of h script w) = [] →
  (∃ exn, outcome_of h script w = Raises exn) ∧
  ∃ wwt l,
    omap connected (log_of h script w) = [wwt] ∧
    omap created (log_of h script w) = [(l, fields)] ∧
    omap set_properties_arg (log_of h script w) = [props_dict] ∧
    omap method_call (log_of h script w)
    = [(OnClient wwt, "new_layer"); (OnLayer l, "set_properties");
       (OnLayer l, "activate")].
Proof.
  all_runs h; intros Hfile Hupdate; try done;
    (split; [by eexists | by do 2 eexists]).
Qed.

(** X4. When [update] is called, also in a run that fails later, the file
    has been opened once and closed once by then, with all accesses in
    between; the data passed holds under "color" the array
    [map_array_to_colors] returned, replacing any entry of that name, and
    under every other key what [convert_xyz_to_spherical] returned. *)
Theorem update_only_after_file_closed w :
  omap update_args (log_of h script w) ≠ [] →
  ∃ f col d data,
    omap opened (log_of h script w) = [(fn, "r", f)] ∧
    omap close_call (log_of h script w) = [f] ∧
    opened_once_closed_once (omap file_op_of (log_of h script w)) = true ∧
    omap colors_result (log_of h script w) = [col] ∧
    omap convert_result (log_of h script w) = [d] ∧
    omap update_args (log_of h script w) = [(data, true, fly_to)] ∧
    data !! "color" = Some (Colors col) ∧
    ∀ key, key ≠ "color" → data !! key = d !! key.
Proof.
  all_runs h; intros Hupdate; try done;
    (do 4 eexists; repeat split; try reflexivity;
     [ apply lookup_insert_eq
     | intros key Hkey; by apply lookup_insert_ne ]).
Qed.

(** X5. In any run, every method call is made on the client the
    constructor returned or on the layer [new_layer] returned, every item
    access and the close on the handle [h5py.File] returned, and every
    read on a dataset an item access returned. *)
Theorem handles_come_from_this_run w :
  Forall (λ r, match r.1 with
               | OnClient wwt => omap connected (log_of h script w) = [wwt]
               | OnLayer l => (omap created (log_of h script w)).*1 = [l]
               end)
         (omap method_call (log_of h script w)) ∧
  Forall (λ fk, (omap opened (log_of h script w)).*2 = [fk.1])
         (omap getitem_call (log_of h script w)) ∧
  Forall (λ f, (omap opened (log_of h script w)).*2 = [f])
         (omap close_call (log_of h script w)) ∧
  Forall (λ d, d ∈ (omap getitem_result (log_of h script w)).*2)
         (omap read_call (log_of h script w)).
Proof.
  all_runs h; repeat split; repeat constructor.
Qed.

(** X6. The cell that loads the data makes no call on the client or on a
    layer and does not connect, however it ends; when it returns, the file
    has been opened once and closed once, and the dict it leaves in [data]
    is the conversion's result with the colours under "color". *)
Theorem load_cell_leaves_application_alone w :
  omap method_call (log_of h cell_load w) = [] ∧
  omap connected (log_of h cell_load w) = [] ∧
  call_site_of <$> log_of h cell_load w
    `prefix_of` take 13 (drop 4 script_call_sites) ∧
  match outcome_of h cell_load w with
  | Returns data =>
      opened_once_closed_once (omap file_op_of (log_of h cell_load w)) = true ∧
      ∃ col d,
        omap colors_result (log_of h cell_load w) = [col] ∧
        omap convert_result (log_of h cell_load w) = [d] ∧
        data = <["color" := Colors col]> d
  | Raises _ => omap update_args (log_of h cell_load w) = []
  end.
Proof.
  load_cell_runs h;
    (split; [reflexivity|]; split; [reflexivity|];
     split; [eexists; reflexivity|]);
    first [ reflexivity | split; [reflexivity | by do 2 eexists] ].
Qed.

End MoreRuns.

Lemma layer_without_data_when_loading_fails_witness :
  omap file_call (log_of sim_handler script (sim_world no_x)) ≠ [] ∧
  omap update_args (log_of sim_handler script (sim_world no_x)) = [] ∧
  (∃ exn, outcome_of sim_handler script (sim_world no_x) = Raises exn) ∧
  ∃ wwt l,
    omap connected (log_of sim_handler script (sim_world no_x)) = [wwt] ∧
    omap created (log_of sim_handler script (sim_world no_x))
    = [(l, fields)] ∧
    omap set_properties_arg (log_of sim_handler script (sim_world no_x))
    = [props_dict] ∧
    omap method_call (log_of sim_handler script (sim_world no_x))
    = [(OnClient wwt, "new_layer"); (OnLayer l, "set_properties");
       (OnLayer l, "activate")].
Proof.
  split; [by vm_compute|]. split; [by vm_compute|].
  apply (layer_without_data_when_loading_fails sim_handler (sim_world no_x));
    by vm_compute.
Defined.

Lemma update_only_after_file_closed_witness :
  outcome_of sim_disconnecting script (sim_world two_points)
  = Raises "ConnectionError" ∧
  omap update_args (log_of sim_disconnecting script (sim_world two_points))
  ≠ [] ∧
  ∃ f col d data,
    omap opened (log_of sim_disconnecting script (sim_world two_points))
    = [(fn, "r", f)] ∧
    omap close_call (log_of sim_disconnecting script (sim_world two_points))
    = [f] ∧
    opened_once_closed_once
      (omap file_op_of
         (log_of sim_disconnecting script (sim_world two_points))) = true ∧
    omap colors_result (log_of sim_disconnecting script (sim_world two_points))
    = [col] ∧
    omap convert_result (log_of sim_disconnecting script (sim_world two_points))
    = [d] ∧
    omap update_args (log_of sim_disconnecting script (sim_world two_points))
    = [(data, true, fly_to)] ∧
    data !! "color" = Some (Colors col) ∧
    ∀ key, key ≠ "color" → data !! key = d !! key.
Proof.
  assert (omap update_args
            (log_of sim_disconnecting script (sim_world two_points)) ≠ [])
    as Hupdate.
  { intros Hnil. apply (f_equal length) in Hnil.
    vm_compute in Hnil. discriminate Hnil. }
  split; [vm_compute; reflexivity|]. split; [exact Hupdate|].
  apply (update_only_after_file_closed
           sim_disconnecting (sim_world two_points)).
  exact Hupdate.
Defined.
